(** * The VVISF-GL binding layer ([src/bindings/vvisf_bindings.cpp])

    A shallow embedding of the three classes of the binding module
    ([ValidationResult], [ImageData], [VVISFEngine]) and of the module-level
    functions, followed by the properties of the engine's methods.

    Conventions.
    - A C++ [int] is a [Z] in the range of [int_range]; arithmetic on it is
      written with its 32-bit two's complement wrap-around ([wrap32]).  Signed
      overflow is undefined in C++; the wrap-around is what the 64-bit targets
      of the binding compute, and every statement below that depends on it
      says so.
    - [size_t] is 64 bits wide; the conversion from [int] is [to_size_t].
    - A method of [VVISFEngine] is a computation in the monad [M]: it reads
      and writes the two private members of the engine and either returns a
      value or throws a C++ exception.
    - [std::map<std::string, py::object>] is a [gmap string py.object].
    - Running out of memory ([std::bad_alloc]) is not modelled: an allocation
      of at most [vector_max_size] bytes succeeds. *)

From Stdlib Require Import ZArith Strings.Byte.
From Stdlib Require Import Floats.SpecFloat.
From stdpp Require Import gmap strings list pretty.

Local Open Scope Z_scope.

(** ** C++ scalars *)

Definition INT_MIN : Z := - 2 ^ 31.
Definition INT_MAX : Z := 2 ^ 31 - 1.

Definition int_range (z : Z) : Prop := INT_MIN <= z <= INT_MAX.

(** Two's complement reduction to 32 bits. *)
Definition wrap32 (z : Z) : Z := (z + 2 ^ 31) mod 2 ^ 32 - 2 ^ 31.

(** [a * b] on [int]. *)
Definition int_mul (a b : Z) : Z := wrap32 (a * b).

(** Conversion of an [int] to [size_t] (64 bits, modular). *)
Definition to_size_t (z : Z) : Z := z mod 2 ^ 64.

(** ** Exceptions

    Only the two classes of [<stdexcept>] that the module can raise; both
    derive from [std::exception], so [catch (const std::exception&)] catches
    either. *)

Inductive exception : Type :=
  | runtime_error (msg : string)
  | length_error (msg : string).

Definition what (e : exception) : string :=
  match e with
  | runtime_error msg => msg
  | length_error msg => msg
  end.

(** The result of evaluating a C++ expression: a value or a thrown exception. *)
Inductive outcome (A : Type) : Type :=
  | Returned (a : A)
  | Threw (e : exception).

Arguments Returned {A} a.
Arguments Threw {A} e.

#[global] Instance outcome_ret : MRet outcome := fun A a => Returned a.

#[global] Instance outcome_bind : MBind outcome := fun A B k o =>
  match o with
  | Returned a => k a
  | Threw e => Threw e
  end.

(** ** [std::vector<uint8_t>] *)

(** [max_size()] of a byte vector on an LP64 target ([PTRDIFF_MAX]). *)
Definition vector_max_size : Z := 2 ^ 63 - 1.

(** [std::vector<uint8_t>(n, value)]: the fill constructor. *)
Definition vector_fill (n : Z) (value : byte) : outcome (list byte) :=
  if vector_max_size <? n
  then Threw (length_error "cannot create std::vector larger than max_size()")
  else Returned (replicate (Z.to_nat n) value).

(** [v.resize(n)]: truncates, or appends value-initialised (zero) bytes. *)
Definition vector_resize (v : list byte) (n : Z) : outcome (list byte) :=
  if vector_max_size <? n
  then Threw (length_error "vector::_M_default_append")
  else Returned (resize (Z.to_nat n) x00 v).

(** ** Python objects ([namespace py = pybind11]) *)

Module py.

#[warnings="-register-all"]
Inductive object : Type :=
  | None_
  | Bool (b : bool)
  | Int (z : Z)
  | Float (d : spec_float)
  | Str (s : string)
  | Tuple (items : list object).

(** [py::float_(d)] *)
Definition float_ (d : spec_float) : object := Float d.

(** [py::make_tuple(a, b)] on two C++ [int]s, each cast to a Python int. *)
Definition make_tuple (a b : Z) : object := Tuple [Int a; Int b].

End py.

(** The [double] literal [0.0]. *)
Definition double_zero : spec_float := S754_zero false.

(** ** [class ValidationResult] *)

Record ValidationResult : Type := mkValidationResult {
  is_valid : bool;
  errors : list string;
  warnings : list string;
  metadata : gmap string py.object
}.

(** [ValidationResult() : is_valid(false) {}] *)
Definition ValidationResult_default : ValidationResult :=
  {| is_valid := false; errors := []; warnings := []; metadata := ∅ |}.

(** [ValidationResult(bool, const vector<string>&, const vector<string>&)] *)
Definition ValidationResult_of (valid : bool) (errs warns : list string)
  : ValidationResult :=
  {| is_valid := valid; errors := errs; warnings := warns; metadata := ∅ |}.

Definition set_is_valid (b : bool) (r : ValidationResult) : ValidationResult :=
  {| is_valid := b; errors := errors r; warnings := warnings r;
     metadata := metadata r |}.

Definition set_errors (l : list string) (r : ValidationResult)
  : ValidationResult :=
  {| is_valid := is_valid r; errors := l; warnings := warnings r;
     metadata := metadata r |}.

Definition set_warnings (l : list string) (r : ValidationResult)
  : ValidationResult :=
  {| is_valid := is_valid r; errors := errors r; warnings := l;
     metadata := metadata r |}.

Definition set_metadata (m : gmap string py.object) (r : ValidationResult)
  : ValidationResult :=
  {| is_valid := is_valid r; errors := errors r; warnings := warnings r;
     metadata := m |}.

(** ** [class ImageData] *)

Record ImageData : Type := mkImageData {
  width : Z;
  height : Z;
  data : list byte;
  format : string
}.

(** [ImageData() : width(0), height(0), format("RGBA") {}] *)
Definition ImageData_default : ImageData :=
  {| width := 0; height := 0; data := []; format := "RGBA" |}.

(** [ImageData(int w, int h, const std::string& fmt = "RGBA")]: the members
    are initialised, then [data.resize(width * height * 4)]. *)
Definition ImageData_of (w h : Z) (fmt : string) : outcome ImageData :=
  let image := {| width := w; height := h; data := []; format := fmt |} in
  d ← vector_resize (data image)
        (to_size_t (int_mul (int_mul (width image) (height image)) 4));
  mret {| width := width image; height := height image; data := d;
          format := format image |}.

Definition set_data (d : list byte) (image : ImageData) : ImageData :=
  {| width := width image; height := height image; data := d;
     format := format image |}.

(** [get_bytes]: the bytes of [data], as a Python [bytes] of the same length. *)
Definition get_bytes (image : ImageData) : list byte := data image.

(** [get_size]: [{width, height}]. *)
Definition get_size (image : ImageData) : list Z :=
  [width image; height image].

(** ** [class VVISFEngine] *)

Record VVISFEngine : Type := mkVVISFEngine {
  last_error_ : string;
  is_initialized_ : bool
}.

(** A member function: a state transformer on the engine that returns or
    throws. *)
Definition M (A : Type) : Type := VVISFEngine → outcome A * VVISFEngine.

#[global] Instance M_ret : MRet M := fun A a this => (Returned a, this).

#[global] Instance M_bind : MBind M := fun A B k m this =>
  match m this with
  | (Returned a, this') => k a this'
  | (Threw e, this') => (Threw e, this')
  end.

(** [throw e;] *)
Definition throw {A : Type} (e : exception) : M A := fun this => (Threw e, this).

(** An expression that does not touch the engine. *)
Definition lift {A : Type} (o : outcome A) : M A := fun this => (o, this).

(** [try { body } catch (const std::exception& e) { handler e }] *)
Definition try_catch {A : Type} (body : M A) (handler : exception → M A) : M A :=
  fun this =>
    match body this with
    | (Returned a, this') => (Returned a, this')
    | (Threw e, this') => handler e this'
    end.

(** Reads and writes of the private members. *)
Definition read_last_error : M string :=
  fun this => (Returned (last_error_ this), this).

Definition read_is_initialized : M bool :=
  fun this => (Returned (is_initialized_ this), this).

Definition write_last_error (s : string) : M unit :=
  fun this =>
    (Returned tt,
     {| last_error_ := s; is_initialized_ := is_initialized_ this |}).

Definition write_is_initialized (b : bool) : M unit :=
  fun this =>
    (Returned tt, {| last_error_ := last_error_ this; is_initialized_ := b |}).

(** The guard that opens every method:
    [if (!is_initialized_) throw std::runtime_error("VVISFEngine not initialized: " + last_error_);] *)
Definition not_initialized (last_error : string) : exception :=
  runtime_error ("VVISFEngine not initialized: " +:+ last_error).

Definition require_initialized : M unit :=
  init ← read_is_initialized;
  if negb init
  then (err ← read_last_error; throw (not_initialized err))
  else mret tt.

(** [VVISFEngine() : is_initialized_(false) { try { is_initialized_ = true; } catch ... }] *)
Definition VVISFEngine_members : VVISFEngine :=
  {| last_error_ := EmptyString; is_initialized_ := false |}.

Definition VVISFEngine_body : M unit :=
  try_catch
    (write_is_initialized true)
    (fun e => _ ← write_last_error (what e); write_is_initialized false).

Definition VVISFEngine_new : VVISFEngine :=
  snd (VVISFEngine_body VVISFEngine_members).

(** [validate_isf] *)
Definition validate_isf (isf_json : string) : M ValidationResult :=
  _ ← require_initialized;
  try_catch
    (let result := ValidationResult_default in
     let result := set_is_valid true result in
     let result := set_errors [] result in
     let result := set_warnings [] result in
     let result := set_metadata ∅ result in
     mret result)
    (fun e =>
     let result := ValidationResult_default in
     let result := set_is_valid false result in
     let result := set_errors [what e] result in
     let result := set_warnings [] result in
     let result := set_metadata ∅ result in
     mret result).

(** [render_shader], with the default [parameters = {}] passed explicitly. *)
Definition render_shader (isf_json : string) (width height : Z)
    (parameters : gmap string py.object) : M ImageData :=
  _ ← require_initialized;
  try_catch
    (image ← lift (ImageData_of width height "RGBA");
     d ← lift (vector_fill (to_size_t (int_mul (int_mul width height) 4)) xff);
     mret (set_data d image))
    (fun e => throw (runtime_error ("Shader rendering failed: " +:+ what e))).

(** [create_texture].  The identifier is built from the address of the
    argument [data], which the caller (the argument converter of the binding)
    chooses: it is the extra argument [data_addr]. *)
Definition create_texture (data_addr : N) (data : list byte) (width height : Z)
    (format : string) : M string :=
  _ ← require_initialized;
  try_catch
    (mret ("texture_" +:+ pretty data_addr))
    (fun e => throw (runtime_error ("Texture creation failed: " +:+ what e))).

(** [destroy_texture] *)
Definition destroy_texture (texture_id : string) : M unit :=
  _ ← require_initialized;
  try_catch
    (mret tt)
    (fun e => throw (runtime_error ("Texture destruction failed: " +:+ what e))).

(** [get_parameters] *)
Definition get_parameters (isf_json : string) : M (gmap string py.object) :=
  _ ← require_initialized;
  try_catch
    (let params : gmap string py.object := ∅ in
     let params := <["time" := py.float_ double_zero]> params in
     let params := <["resolution" := py.make_tuple 512 512]> params in
     mret params)
    (fun e => throw (runtime_error ("Parameter extraction failed: " +:+ what e))).

(** [set_parameter] *)
Definition set_parameter (isf_json param_name : string) (value : py.object)
  : M unit :=
  _ ← require_initialized;
  try_catch
    (mret tt)
    (fun e => throw (runtime_error ("Parameter setting failed: " +:+ what e))).

(** The [const] methods. *)
Definition get_last_error (this : VVISFEngine) : string := last_error_ this.

Definition is_initialized (this : VVISFEngine) : bool := is_initialized_ this.

(** [reset_errors]: [last_error_.clear()]. *)
Definition reset_errors : M unit := write_last_error EmptyString.

(** ** Module-level functions *)

(** [create_engine]: [std::make_unique<VVISFEngine>()]. *)
Definition create_engine : VVISFEngine := VVISFEngine_new.

Definition get_version : string := "1.0.0".

(** ** The engines a host can hold

    The class is exposed with its default constructor and its nine methods
    only; the members are private.  A host therefore holds an engine that
    was constructed and then went through some sequence of method calls. *)

Inductive method_call : Type :=
  | call_validate_isf (isf_json : string)
  | call_render_shader (isf_json : string) (width height : Z)
      (parameters : gmap string py.object)
  | call_create_texture (data_addr : N) (data : list byte) (width height : Z)
      (format : string)
  | call_destroy_texture (texture_id : string)
  | call_get_parameters (isf_json : string)
  | call_set_parameter (isf_json param_name : string) (value : py.object)
  | call_get_last_error
  | call_is_initialized
  | call_reset_errors.

(** The engine after a call, whether the call returned or threw. *)
Definition after (c : method_call) (this : VVISFEngine) : VVISFEngine :=
  match c with
  | call_validate_isf s => snd (validate_isf s this)
  | call_render_shader s w h p => snd (render_shader s w h p this)
  | call_create_texture a d w h f => snd (create_texture a d w h f this)
  | call_destroy_texture t => snd (destroy_texture t this)
  | call_get_parameters s => snd (get_parameters s this)
  | call_set_parameter s n v => snd (set_parameter s n v this)
  | call_get_last_error => this
  | call_is_initialized => this
  | call_reset_errors => snd (reset_errors this)
  end.

Inductive reachable : VVISFEngine → Prop :=
  | reachable_new : reachable VVISFEngine_new
  | reachable_after c this : reachable this → reachable (after c this).

(** ** Vocabulary of the properties *)

(** Pixel [i] of an image: the four bytes R, G, B, A at offset [4 * i]. *)
Definition pixel (image : ImageData) (i : nat) : list byte :=
  take 4 (drop (4 * i) (data image)).

(** A message identifies a name when the name occurs in it. *)
Definition mentions (name msg : string) : Prop :=
  ∃ pre post, msg = pre +:+ name +:+ post.

(** The double quote, for writing JSON texts. *)
Definition dq : string := String (Ascii.ascii_of_byte x22) EmptyString.

Definition quoted (s : string) : string := dq +:+ s +:+ dq.

(** An ISF text whose JSON header declares one float input per name, in
    order, and whose shader body writes a constant colour. *)
Definition isf_input (name : string) : string :=
  "{" +:+ quoted "NAME" +:+ ":" +:+ quoted name +:+ ","
      +:+ quoted "TYPE" +:+ ":" +:+ quoted "float" +:+ "}".

Fixpoint isf_inputs (names : list string) : string :=
  match names with
  | [] => EmptyString
  | [n] => isf_input n
  | n :: rest => isf_input n +:+ "," +:+ isf_inputs rest
  end.

Definition isf_with_inputs (names : list string) : string :=
  "/*{" +:+ quoted "INPUTS" +:+ ":[" +:+ isf_inputs names +:+ "]}*/"
        +:+ "void main(){gl_FragColor=vec4(1.0,0.0,0.0,1.0);}".

(** One pass, no inputs, constant colour (1,0,0,1). *)
Definition red_document : string := isf_with_inputs [].

(** The input [level] declared twice. *)
Definition duplicate_document : string := isf_with_inputs ["level"; "level"].

(** A header that is cut off before its JSON object is closed. *)
Definition malformed_document : string := "/*{ INPUTS: [".

(** A computation that leaves the engine as it is, whether it returns or
    throws. *)
Definition preserves_engine {A : Type} (m : M A) : Prop :=
  ∀ this, snd (m this) = this.

(** The guard of the six guarded methods does not fire on [this]. *)
Definition guard_passes (this : VVISFEngine) : Prop :=
  require_initialized this = (Returned tt, this)
  ∧ ∀ err,
      (∀ s, fst (validate_isf s this) ≠ Threw (not_initialized err))
      ∧ (∀ s w h p, fst (render_shader s w h p this) ≠ Threw (not_initialized err))
      ∧ (∀ a d w h f,
           fst (create_texture a d w h f this) ≠ Threw (not_initialized err))
      ∧ (∀ t, fst (destroy_texture t this) ≠ Threw (not_initialized err))
      ∧ (∀ s, fst (get_parameters s this) ≠ Threw (not_initialized err))
      ∧ (∀ s n v, fst (set_parameter s n v this) ≠ Threw (not_initialized err)).

(** * Properties *)

Example VVISFEngine_new_validates :
  fst (validate_isf "{}" VVISFEngine_new)
  = Returned (ValidationResult_of true [] []).
Proof. reflexivity. Qed.

Example get_version_text : get_version = "1.0.0".
Proof. reflexivity. Qed.


(** ** The monad *)

Lemma M_bind_returned {A B : Type} (m : M A) (k : A → M B) this a this' :
  m this = (Returned a, this') → (m ≫= k) this = k a this'.
Proof. intros Hm. unfold mbind, M_bind. rewrite Hm. reflexivity. Qed.

Lemma M_bind_threw {A B : Type} (m : M A) (k : A → M B) this e this' :
  m this = (Threw e, this') → (m ≫= k) this = (Threw e, this').
Proof. intros Hm. unfold mbind, M_bind. rewrite Hm. reflexivity. Qed.

Lemma try_catch_returned {A : Type} (body : M A) handler this a this' :
  body this = (Returned a, this') →
  try_catch body handler this = (Returned a, this').
Proof. intros Hb. unfold try_catch. rewrite Hb. reflexivity. Qed.

Lemma try_catch_threw {A : Type} (body : M A) handler this e this' :
  body this = (Threw e, this') →
  try_catch body handler this = handler e this'.
Proof. intros Hb. unfold try_catch. rewrite Hb. reflexivity. Qed.

(** ** Computations that leave the engine as it is *)

Create HintDb frame.

Lemma preserves_ret {A : Type} (a : A) : preserves_engine (mret a).
Proof. intros this. reflexivity. Qed.

Lemma preserves_throw {A : Type} (e : exception) :
  preserves_engine (@throw A e).
Proof. intros this. reflexivity. Qed.

Lemma preserves_lift {A : Type} (o : outcome A) : preserves_engine (lift o).
Proof. intros this. reflexivity. Qed.

Lemma preserves_read_last_error : preserves_engine read_last_error.
Proof. intros this. reflexivity. Qed.

Lemma preserves_read_is_initialized : preserves_engine read_is_initialized.
Proof. intros this. reflexivity. Qed.

Lemma preserves_bind {A B : Type} (m : M A) (k : A → M B) :
  preserves_engine m → (∀ a, preserves_engine (k a)) →
  preserves_engine (m ≫= k).
Proof.
  intros Hm Hk this. unfold mbind, M_bind.
  specialize (Hm this). destruct (m this) as [[a | e] this']; simpl in Hm; subst this'.
  - apply Hk.
  - reflexivity.
Qed.

Lemma preserves_try_catch {A : Type} (body : M A) handler :
  preserves_engine body → (∀ e, preserves_engine (handler e)) →
  preserves_engine (try_catch body handler).
Proof.
  intros Hb Hh this. unfold try_catch.
  specialize (Hb this). destruct (body this) as [[a | e] this']; simpl in Hb; subst this'.
  - reflexivity.
  - apply Hh.
Qed.

Lemma preserves_if {A : Type} (b : bool) (m1 m2 : M A) :
  preserves_engine m1 → preserves_engine m2 →
  preserves_engine (if b then m1 else m2).
Proof. destruct b; auto. Qed.

#[local] Hint Resolve preserves_ret preserves_throw preserves_lift
  preserves_read_last_error preserves_read_is_initialized : frame.

(** Walks down the syntax of a method body. *)
Ltac frame :=
  repeat (intros; cbv beta zeta;
          first [ solve [ auto with frame ]
                | apply preserves_bind
                | apply preserves_try_catch
                | apply preserves_if ]).

Lemma preserves_require_initialized : preserves_engine require_initialized.
Proof. unfold require_initialized. frame. Qed.

#[local] Hint Resolve preserves_require_initialized : frame.

Lemma preserves_validate_isf s : preserves_engine (validate_isf s).
Proof. unfold validate_isf. frame. Qed.

Lemma preserves_render_shader s w h p : preserves_engine (render_shader s w h p).
Proof. unfold render_shader. frame. Qed.

Lemma preserves_create_texture a d w h f :
  preserves_engine (create_texture a d w h f).
Proof. unfold create_texture. frame. Qed.

Lemma preserves_destroy_texture t : preserves_engine (destroy_texture t).
Proof. unfold destroy_texture. frame. Qed.

Lemma preserves_get_parameters s : preserves_engine (get_parameters s).
Proof. unfold get_parameters. frame. Qed.

Lemma preserves_set_parameter s n v : preserves_engine (set_parameter s n v).
Proof. unfold set_parameter. frame. Qed.

(** ** The guard *)

Lemma require_initialized_true this :
  is_initialized_ this = true → require_initialized this = (Returned tt, this).
Proof.
  intros Hinit. unfold require_initialized.
  rewrite (M_bind_returned _ _ this (is_initialized_ this) this) by reflexivity.
  rewrite Hinit. reflexivity.
Qed.

Lemma require_initialized_false this :
  is_initialized_ this = false →
  require_initialized this = (Threw (not_initialized (last_error_ this)), this).
Proof.
  intros Hinit. unfold require_initialized.
  rewrite (M_bind_returned _ _ this (is_initialized_ this) this) by reflexivity.
  rewrite Hinit. reflexivity.
Qed.

(** A guarded method on an initialised engine runs its body. *)
Lemma guarded_true {A : Type} (body : M A) this :
  is_initialized_ this = true →
  (require_initialized ≫= λ _, body) this = body this.
Proof.
  intros Hinit.
  rewrite (M_bind_returned _ _ this tt this); [reflexivity |].
  apply require_initialized_true, Hinit.
Qed.

(** On an engine that is not initialised it throws, whatever the body. *)
Lemma guarded_false {A : Type} (body : M A) this :
  is_initialized_ this = false →
  (require_initialized ≫= λ _, body) this
  = (Threw (not_initialized (last_error_ this)), this).
Proof.
  intros Hinit.
  apply M_bind_threw, require_initialized_false, Hinit.
Qed.

(** ** Arithmetic of the buffer size *)

Lemma wrap32_range z : int_range (wrap32 z).
Proof.
  unfold int_range, wrap32, INT_MIN, INT_MAX.
  pose proof (Z.mod_pos_bound (z + 2 ^ 31) (2 ^ 32) eq_refl). lia.
Qed.

Lemma wrap32_id z : int_range z → wrap32 z = z.
Proof.
  unfold int_range, wrap32, INT_MIN, INT_MAX. intros Hz.
  rewrite Z.mod_small by lia. lia.
Qed.

(** Without overflow, [width * height * 4] is the mathematical product. *)
Lemma image_size_exact w h :
  0 <= w * h * 4 <= INT_MAX → int_mul (int_mul w h) 4 = w * h * 4.
Proof.
  unfold int_mul, INT_MAX. intros Hn.
  rewrite (wrap32_id (w * h)) by (unfold int_range, INT_MIN, INT_MAX; lia).
  apply wrap32_id. unfold int_range, INT_MIN, INT_MAX. lia.
Qed.

Lemma to_size_t_nonneg n : int_range n → 0 <= n → to_size_t n = n.
Proof.
  unfold int_range, INT_MAX, to_size_t. intros Hn Hpos.
  apply Z.mod_small. lia.
Qed.

(** A negative [int] becomes a [size_t] beyond any vector's capacity. *)
Lemma to_size_t_neg n : int_range n → n < 0 → vector_max_size < to_size_t n.
Proof.
  unfold int_range, INT_MIN, to_size_t, vector_max_size. intros Hn Hneg.
  replace n with (n + 2 ^ 64 + (-1) * 2 ^ 64) by lia.
  rewrite Z.mod_add by lia. rewrite Z.mod_small by lia. lia.
Qed.

(** The two allocations of [render_shader], by the sign of the [int] size. *)
Lemma vector_resize_run v n :
  int_range n →
  vector_resize v (to_size_t n)
  = if n <? 0
    then Threw (length_error "vector::_M_default_append")
    else Returned (resize (Z.to_nat n) x00 v).
Proof.
  intros Hn. unfold vector_resize.
  destruct (Z.ltb_spec n 0) as [Hneg | Hpos].
  - pose proof (to_size_t_neg n Hn Hneg).
    destruct (Z.ltb_spec vector_max_size (to_size_t n)); [reflexivity | lia].
  - rewrite (to_size_t_nonneg n Hn Hpos).
    destruct (Z.ltb_spec vector_max_size n) as [Hbig | _]; [| reflexivity].
    unfold vector_max_size, int_range, INT_MAX in *. lia.
Qed.

Lemma vector_fill_run n value :
  int_range n →
  vector_fill (to_size_t n) value
  = if n <? 0
    then Threw (length_error "cannot create std::vector larger than max_size()")
    else Returned (replicate (Z.to_nat n) value).
Proof.
  intros Hn. unfold vector_fill.
  destruct (Z.ltb_spec n 0) as [Hneg | Hpos].
  - pose proof (to_size_t_neg n Hn Hneg).
    destruct (Z.ltb_spec vector_max_size (to_size_t n)); [reflexivity | lia].
  - rewrite (to_size_t_nonneg n Hn Hpos).
    destruct (Z.ltb_spec vector_max_size n) as [Hbig | _]; [| reflexivity].
    unfold vector_max_size, int_range, INT_MAX in *. lia.
Qed.

Lemma ImageData_of_run w h fmt :
  let n := int_mul (int_mul w h) 4 in
  ImageData_of w h fmt
  = if n <? 0
    then Threw (length_error "vector::_M_default_append")
    else Returned {| width := w; height := h;
                     data := replicate (Z.to_nat n) x00; format := fmt |}.
Proof.
  intros n. unfold ImageData_of. cbn [width height data format]. fold n.
  rewrite vector_resize_run by apply wrap32_range.
  destruct (n <? 0); [reflexivity |].
  unfold mbind, outcome_bind. rewrite resize_nil. reflexivity.
Qed.

(** ** What each method does on an initialised engine *)

Section Initialised.

Variable this : VVISFEngine.
Hypothesis Hinit : is_initialized_ this = true.

Lemma validate_isf_run isf_json :
  validate_isf isf_json this
  = (Returned {| is_valid := true; errors := []; warnings := [];
                 metadata := ∅ |}, this).
Proof. unfold validate_isf. rewrite guarded_true by exact Hinit. reflexivity. Qed.

Lemma render_shader_run isf_json w h parameters :
  let n := int_mul (int_mul w h) 4 in
  render_shader isf_json w h parameters this
  = if n <? 0
    then (Threw (runtime_error
                   ("Shader rendering failed: " +:+ "vector::_M_default_append")),
          this)
    else (Returned {| width := w; height := h;
                      data := replicate (Z.to_nat n) xff;
                      format := "RGBA" |}, this).
Proof.
  intros n. unfold render_shader. rewrite guarded_true by exact Hinit.
  unfold try_catch, lift, mbind, M_bind.
  rewrite ImageData_of_run. fold n.
  rewrite vector_fill_run by apply wrap32_range. fold n.
  destruct (n <? 0); reflexivity.
Qed.

(** Within the range of [int] the image is opaque white. *)
Lemma render_shader_white isf_json w h parameters :
  0 <= w * h * 4 <= INT_MAX →
  render_shader isf_json w h parameters this
  = (Returned {| width := w; height := h;
                 data := replicate (Z.to_nat (w * h * 4)) xff;
                 format := "RGBA" |}, this).
Proof.
  intros Hn. rewrite render_shader_run. cbv zeta.
  rewrite (image_size_exact w h Hn).
  destruct (Z.ltb_spec (w * h * 4) 0); [lia | reflexivity].
Qed.

Lemma create_texture_run data_addr bytes w h fmt :
  create_texture data_addr bytes w h fmt this
  = (Returned ("texture_" +:+ pretty data_addr), this).
Proof. unfold create_texture. rewrite guarded_true by exact Hinit. reflexivity. Qed.

Lemma destroy_texture_run texture_id :
  destroy_texture texture_id this = (Returned tt, this).
Proof. unfold destroy_texture. rewrite guarded_true by exact Hinit. reflexivity. Qed.

Lemma get_parameters_run isf_json :
  get_parameters isf_json this
  = (Returned (<["resolution" := py.make_tuple 512 512]>
                 (<["time" := py.float_ double_zero]> ∅)), this).
Proof. unfold get_parameters. rewrite guarded_true by exact Hinit. reflexivity. Qed.

Lemma set_parameter_run isf_json param_name value :
  set_parameter isf_json param_name value this = (Returned tt, this).
Proof. unfold set_parameter. rewrite guarded_true by exact Hinit. reflexivity. Qed.

End Initialised.

(** ** The invariant of the engines a host can hold *)

Lemma VVISFEngine_new_eq :
  VVISFEngine_new = {| last_error_ := EmptyString; is_initialized_ := true |}.
Proof. reflexivity. Qed.

Lemma after_preserves c this :
  is_initialized_ (after c this) = is_initialized_ this
  ∧ (last_error_ this = EmptyString → last_error_ (after c this) = EmptyString).
Proof.
  destruct c; simpl;
    rewrite ?preserves_validate_isf, ?preserves_render_shader,
      ?preserves_create_texture, ?preserves_destroy_texture,
      ?preserves_get_parameters, ?preserves_set_parameter;
    auto.
Qed.

Lemma reachable_invariant this :
  reachable this →
  is_initialized_ this = true ∧ last_error_ this = EmptyString.
Proof.
  induction 1 as [| c this Hreach [IHinit IHerr]].
  - split; reflexivity.
  - destruct (after_preserves c this) as [Hi He]. split.
    + rewrite Hi. exact IHinit.
    + apply He, IHerr.
Qed.

(** * The claims *)

(** ** Validation *)

(** C1: for every input text, [validate_isf] on an initialised engine returns
    a [ValidationResult] with [is_valid = true] and with empty [errors] and
    [warnings]; the text of a well-formed document whose passes reference
    declared names only is one such input. *)
Theorem validate_isf_reports_success this isf_json :
  is_initialized this = true →
  ∃ result,
    fst (validate_isf isf_json this) = Returned result
    ∧ is_valid result = true
    ∧ errors result = []
    ∧ warnings result = [].
Proof.
  intros Hinit. eexists. rewrite (validate_isf_run this Hinit).
  repeat split.
Qed.

Lemma validate_isf_reports_success_witness :
  is_initialized VVISFEngine_new = true
  ∧ ∃ result,
      fst (validate_isf red_document VVISFEngine_new) = Returned result
      ∧ is_valid result = true
      ∧ errors result = []
      ∧ warnings result = [].
Proof.
  split; [reflexivity |].
  apply (validate_isf_reports_success VVISFEngine_new red_document).
  reflexivity.
Defined.

(** C3, as stated, fails: on [malformed_document], whose JSON header is never
    closed, [validate_isf] does not return a result with [is_valid = false]
    and a non-empty [errors]. *)
Lemma validate_isf_accepts_malformed :
  ¬ ∃ result,
      fst (validate_isf malformed_document VVISFEngine_new) = Returned result
      ∧ is_valid result = false
      ∧ errors result ≠ [].
Proof.
  intros (result & Hrun & Hvalid & _).
  rewrite (validate_isf_run VVISFEngine_new eq_refl) in Hrun.
  injection Hrun as <-. discriminate Hvalid.
Qed.

(** C3, amended: on every engine a host can hold, and for every input text,
    malformed or not, [validate_isf] does not throw: it returns a
    [ValidationResult], which has [is_valid = true] and an empty [errors],
    since the text is not inspected. *)
Theorem validate_isf_never_throws this isf_json :
  reachable this →
  ∃ result,
    validate_isf isf_json this = (Returned result, this)
    ∧ is_valid result = true
    ∧ errors result = [].
Proof.
  intros Hreach. destruct (reachable_invariant this Hreach) as [Hinit _].
  eexists. rewrite (validate_isf_run this Hinit). repeat split.
Qed.

Lemma validate_isf_never_throws_witness :
  reachable (after call_reset_errors VVISFEngine_new)
  ∧ ∃ result,
      validate_isf malformed_document (after call_reset_errors VVISFEngine_new)
      = (Returned result, after call_reset_errors VVISFEngine_new)
      ∧ is_valid result = true
      ∧ errors result = [].
Proof.
  assert (Hreach : reachable (after call_reset_errors VVISFEngine_new))
    by (apply reachable_after, reachable_new).
  split; [exact Hreach |].
  apply (validate_isf_never_throws _ malformed_document Hreach).
Defined.

(** C4, as stated, fails: [duplicate_document] declares the input [level]
    twice, and [validate_isf] does not return [is_valid = false] with an
    error that identifies [level]. *)
Lemma validate_isf_accepts_duplicate_input :
  ¬ ∃ result,
      fst (validate_isf duplicate_document VVISFEngine_new) = Returned result
      ∧ is_valid result = false
      ∧ ∃ msg, msg ∈ errors result ∧ mentions "level" msg.
Proof.
  intros (result & Hrun & Hvalid & _).
  rewrite (validate_isf_run VVISFEngine_new eq_refl) in Hrun.
  injection Hrun as <-. discriminate Hvalid.
Qed.

(** C4, amended: for every document text, also one that declares an input
    name twice, [validate_isf] on an initialised engine returns
    [is_valid = true] and no error at all, so none that identifies the
    name. *)
Theorem validate_isf_ignores_duplicates this isf_json name :
  is_initialized this = true →
  ∃ result,
    fst (validate_isf isf_json this) = Returned result
    ∧ is_valid result = true
    ∧ ∀ msg, msg ∈ errors result → ¬ mentions name msg.
Proof.
  intros Hinit. eexists. rewrite (validate_isf_run this Hinit).
  split; [reflexivity |]. split; [reflexivity |].
  simpl. intros msg Hin. apply elem_of_nil in Hin. destruct Hin.
Qed.

Lemma validate_isf_ignores_duplicates_witness :
  is_initialized VVISFEngine_new = true
  ∧ ∃ result,
      fst (validate_isf duplicate_document VVISFEngine_new) = Returned result
      ∧ is_valid result = true
      ∧ ∀ msg, msg ∈ errors result → ¬ mentions "level" msg.
Proof.
  split; [reflexivity |].
  apply (validate_isf_ignores_duplicates VVISFEngine_new duplicate_document "level").
  reflexivity.
Defined.

(** C9: validation is pure.  On two engines in the same state the same text
    gives equal results; a call leaves the engine (hence [get_last_error] and
    [is_initialized]) as it was; and a second call on the engine left by the
    first gives the result of the first. *)
Theorem validate_isf_pure this1 this2 isf_json :
  is_initialized this1 = is_initialized this2 →
  get_last_error this1 = get_last_error this2 →
  fst (validate_isf isf_json this1) = fst (validate_isf isf_json this2)
  ∧ snd (validate_isf isf_json this1) = this1
  ∧ snd (validate_isf isf_json this2) = this2
  ∧ fst (validate_isf isf_json (snd (validate_isf isf_json this1)))
    = fst (validate_isf isf_json this1).
Proof.
  intros Hinit Herr.
  assert (this1 = this2) as <-.
  { destruct this1, this2. unfold is_initialized, get_last_error in *.
    simpl in *. congruence. }
  rewrite !preserves_validate_isf. repeat split.
Qed.

Lemma validate_isf_pure_witness :
  is_initialized VVISFEngine_new = is_initialized create_engine
  ∧ get_last_error VVISFEngine_new = get_last_error create_engine
  ∧ fst (validate_isf red_document VVISFEngine_new)
    = fst (validate_isf red_document create_engine)
  ∧ snd (validate_isf red_document VVISFEngine_new) = VVISFEngine_new
  ∧ snd (validate_isf red_document create_engine) = create_engine
  ∧ fst (validate_isf red_document
           (snd (validate_isf red_document VVISFEngine_new)))
    = fst (validate_isf red_document VVISFEngine_new).
Proof.
  split; [reflexivity |]. split; [reflexivity |].
  apply (validate_isf_pure VVISFEngine_new create_engine red_document);
    reflexivity.
Defined.

(** ** Rendering *)

(** C2 fails at 32768 x 16384, both positive and in the range of [int]:
    [width * height * 4] is 2^31, which wraps to [INT_MIN]; converted to
    [size_t] it exceeds the capacity of a vector, the allocation throws
    [std::length_error], and [render_shader] rethrows it as a
    [std::runtime_error] instead of returning an image. *)
Theorem render_shader_large_image_throws :
  0 < 32768 ∧ 0 < 16384 ∧ int_range 32768 ∧ int_range 16384
  ∧ int_mul (int_mul 32768 16384) 4 = INT_MIN
  ∧ ∃ msg,
      fst (render_shader red_document 32768 16384 ∅ VVISFEngine_new)
      = Threw (runtime_error ("Shader rendering failed: " +:+ msg)).
Proof.
  repeat (split; [unfold int_range, INT_MIN, INT_MAX; try reflexivity; lia |]).
  eexists. rewrite (render_shader_run VVISFEngine_new eq_refl).
  reflexivity.
Qed.

(** The same wrap-around at 65536 x 65536 gives a size of 0: the call returns
    an image that claims 65536 x 65536 pixels and holds no byte. *)
Example render_shader_65536 :
  fst (render_shader red_document 65536 65536 ∅ VVISFEngine_new)
  = Returned {| width := 65536; height := 65536; data := []; format := "RGBA" |}.
Proof. rewrite (render_shader_run VVISFEngine_new eq_refl). reflexivity. Qed.

(** C5, as stated, fails: rendering [red_document] at 4 x 4 does not return a
    64-byte buffer whose pixels are all [255; 0; 0; 255]. *)
Lemma render_shader_red_is_not_red :
  ¬ ∃ image,
      fst (render_shader red_document 4 4 ∅ VVISFEngine_new) = Returned image
      ∧ length (data image) = 64%nat
      ∧ ∀ i, (i < 16)%nat → pixel image i = [xff; x00; x00; xff].
Proof.
  intros (image & Hrun & _ & Hpixels).
  rewrite (render_shader_white VVISFEngine_new eq_refl)
    in Hrun by (unfold INT_MAX; lia).
  injection Hrun as <-.
  specialize (Hpixels 0%nat ltac:(lia)). discriminate Hpixels.
Qed.

(** C5, amended: for every document text and parameter mapping, also for a
    one-pass document without inputs whose shader writes (1,0,0,1),
    [render_shader] at 4 x 4 on an initialised engine returns a 4 x 4 RGBA
    image of 64 bytes in which every pixel is [255; 255; 255; 255]. *)
Theorem render_shader_4x4_is_white this isf_json parameters :
  is_initialized this = true →
  ∃ image,
    fst (render_shader isf_json 4 4 parameters this) = Returned image
    ∧ width image = 4 ∧ height image = 4 ∧ format image = "RGBA"
    ∧ length (data image) = 64%nat
    ∧ ∀ i, (i < 16)%nat → pixel image i = [xff; xff; xff; xff].
Proof.
  intros Hinit. eexists.
  rewrite (render_shader_white this Hinit) by (unfold INT_MAX; lia).
  repeat (split; [reflexivity |]).
  intros i Hi. unfold pixel. cbn [data].
  change (Z.to_nat (4 * 4 * 4)) with (4 * 16)%nat.
  do 16 (destruct i as [| i]; [reflexivity |]). lia.
Qed.

Lemma render_shader_4x4_is_white_witness :
  is_initialized VVISFEngine_new = true
  ∧ ∃ image,
      fst (render_shader red_document 4 4 ∅ VVISFEngine_new) = Returned image
      ∧ width image = 4 ∧ height image = 4 ∧ format image = "RGBA"
      ∧ length (data image) = 64%nat
      ∧ ∀ i, (i < 16)%nat → pixel image i = [xff; xff; xff; xff].
Proof.
  split; [reflexivity |].
  apply (render_shader_4x4_is_white VVISFEngine_new red_document ∅).
  reflexivity.
Defined.

(** ** Textures *)

Example create_texture_id :
  fst (create_texture 4096 [xff; xff; xff; xff] 1 1 "RGBA" VVISFEngine_new)
  = Returned "texture_4096".
Proof. vm_compute. reflexivity. Qed.

(** C6, as stated, fails: after [destroy_texture "texture_4096"], a second
    call with the same identifier does not raise any error. *)
Lemma destroy_texture_twice_no_error :
  ¬ ∃ e,
      fst (destroy_texture "texture_4096"
             (snd (destroy_texture "texture_4096" VVISFEngine_new)))
      = Threw e.
Proof.
  intros (e & Hrun).
  rewrite preserves_destroy_texture in Hrun.
  rewrite (destroy_texture_run VVISFEngine_new eq_refl) in Hrun.
  discriminate Hrun.
Qed.

(** C6, amended: calling [destroy_texture] twice with the same identifier on
    an initialised engine returns normally both times, and leaves the engine
    as it was; the engine keeps no record of textures. *)
Theorem destroy_texture_twice_returns this texture_id :
  is_initialized this = true →
  destroy_texture texture_id this = (Returned tt, this)
  ∧ destroy_texture texture_id (snd (destroy_texture texture_id this))
    = (Returned tt, this).
Proof.
  intros Hinit. rewrite preserves_destroy_texture.
  split; apply destroy_texture_run, Hinit.
Qed.

Lemma destroy_texture_twice_returns_witness :
  is_initialized VVISFEngine_new = true
  ∧ destroy_texture "texture_4096" VVISFEngine_new
    = (Returned tt, VVISFEngine_new)
  ∧ destroy_texture "texture_4096"
      (snd (destroy_texture "texture_4096" VVISFEngine_new))
    = (Returned tt, VVISFEngine_new).
Proof.
  split; [reflexivity |].
  apply (destroy_texture_twice_returns VVISFEngine_new "texture_4096").
  reflexivity.
Defined.

(** C8: on an initialised engine, [create_texture] and [destroy_texture]
    leave the engine as it was, for all arguments: [get_last_error] and
    [is_initialized] answer as before, and, the two members being the whole
    state, nothing else is there to change. *)
Theorem texture_calls_preserve_engine
    this data_addr bytes w h fmt texture_id :
  is_initialized this = true →
  (snd (create_texture data_addr bytes w h fmt this) = this
   ∧ get_last_error (snd (create_texture data_addr bytes w h fmt this))
     = get_last_error this
   ∧ is_initialized (snd (create_texture data_addr bytes w h fmt this))
     = is_initialized this)
  ∧ (snd (destroy_texture texture_id this) = this
     ∧ get_last_error (snd (destroy_texture texture_id this))
       = get_last_error this
     ∧ is_initialized (snd (destroy_texture texture_id this))
       = is_initialized this).
Proof.
  intros _.
  rewrite preserves_create_texture, preserves_destroy_texture.
  repeat split.
Qed.

Lemma texture_calls_preserve_engine_witness :
  is_initialized VVISFEngine_new = true
  ∧ (snd (create_texture 4096 [xff; xff; xff; xff] 1 1 "RGBA" VVISFEngine_new)
     = VVISFEngine_new
     ∧ get_last_error
         (snd (create_texture 4096 [xff; xff; xff; xff] 1 1 "RGBA"
                 VVISFEngine_new))
       = get_last_error VVISFEngine_new
     ∧ is_initialized
         (snd (create_texture 4096 [xff; xff; xff; xff] 1 1 "RGBA"
                 VVISFEngine_new))
       = is_initialized VVISFEngine_new)
  ∧ (snd (destroy_texture "texture_4096" VVISFEngine_new) = VVISFEngine_new
     ∧ get_last_error (snd (destroy_texture "texture_4096" VVISFEngine_new))
       = get_last_error VVISFEngine_new
     ∧ is_initialized (snd (destroy_texture "texture_4096" VVISFEngine_new))
       = is_initialized VVISFEngine_new).
Proof.
  split; [reflexivity |].
  apply (texture_calls_preserve_engine VVISFEngine_new 4096
           [xff; xff; xff; xff] 1 1 "RGBA" "texture_4096").
  reflexivity.
Defined.

(** ** Parameters *)

(** C7: for every input text, [get_parameters] on an initialised engine
    returns a mapping with exactly two entries, whatever the text: [time]
    bound to the float 0.0 and [resolution] bound to the tuple (512, 512). *)
Theorem get_parameters_placeholders this isf_json :
  is_initialized this = true →
  ∃ params : gmap string py.object,
    fst (get_parameters isf_json this) = Returned params
    ∧ params !! "time" = Some (py.Float (S754_zero false))
    ∧ params !! "resolution" = Some (py.Tuple [py.Int 512; py.Int 512])
    ∧ size params = 2%nat
    ∧ ∀ k, is_Some (params !! k) → k = "time" ∨ k = "resolution".
Proof.
  intros Hinit. eexists. rewrite (get_parameters_run this Hinit).
  split; [reflexivity |].
  split; [rewrite lookup_insert_ne by discriminate; apply lookup_insert_eq |].
  split; [apply lookup_insert_eq |].
  split.
  - rewrite !map_size_insert_None, map_size_empty; [reflexivity | |].
    + apply lookup_empty.
    + rewrite lookup_insert_ne by discriminate. apply lookup_empty.
  - intros k [v Hk]. simpl in Hk.
    destruct (decide (k = "resolution")) as [-> | Hres]; [by right |].
    rewrite lookup_insert_ne in Hk by congruence.
    destruct (decide (k = "time")) as [-> | Htime]; [by left |].
    rewrite lookup_insert_ne in Hk by congruence.
    rewrite lookup_empty in Hk. discriminate Hk.
Qed.

Lemma get_parameters_placeholders_witness :
  is_initialized VVISFEngine_new = true
  ∧ ∃ params : gmap string py.object,
      fst (get_parameters duplicate_document VVISFEngine_new) = Returned params
      ∧ params !! "time" = Some (py.Float (S754_zero false))
      ∧ params !! "resolution" = Some (py.Tuple [py.Int 512; py.Int 512])
      ∧ size params = 2%nat
      ∧ ∀ k, is_Some (params !! k) → k = "time" ∨ k = "resolution".
Proof.
  split; [reflexivity |].
  apply (get_parameters_placeholders VVISFEngine_new duplicate_document).
  reflexivity.
Defined.

(** ** Construction *)

Lemma initialized_guard_passes this :
  is_initialized_ this = true → guard_passes this.
Proof.
  intros Hinit. split; [apply require_initialized_true, Hinit |].
  intros err. repeat split; intros.
  - rewrite (validate_isf_run this Hinit). discriminate.
  - rewrite (render_shader_run this Hinit). cbv zeta.
    destruct (_ <? 0); simpl; discriminate.
  - rewrite (create_texture_run this Hinit). discriminate.
  - rewrite (destroy_texture_run this Hinit). discriminate.
  - rewrite (get_parameters_run this Hinit). discriminate.
  - rewrite (set_parameter_run this Hinit). discriminate.
Qed.

Lemma reachable_guard_passes this : reachable this → guard_passes this.
Proof.
  intros Hreach. apply initialized_guard_passes.
  apply (reachable_invariant this Hreach).
Qed.

(** C10: the engine built by the default constructor, and so the one that
    [create_engine] returns, has [is_initialized() = true] and
    [get_last_error()] empty; on it the guard of [validate_isf],
    [render_shader], [create_texture], [destroy_texture], [get_parameters]
    and [set_parameter] passes, and none of them throws the
    not-initialised error. *)
Theorem constructed_engine_is_initialized :
  (is_initialized VVISFEngine_new = true
   ∧ get_last_error VVISFEngine_new = EmptyString
   ∧ guard_passes VVISFEngine_new)
  ∧ (is_initialized create_engine = true
     ∧ get_last_error create_engine = EmptyString
     ∧ guard_passes create_engine).
Proof.
  assert (Hinit : is_initialized_ VVISFEngine_new = true) by reflexivity.
  split; (split; [reflexivity |]); (split; [reflexivity |]);
    apply initialized_guard_passes, Hinit.
Qed.

(** * Further properties of the module *)

(** ** Sizes that fit in [int] *)

Lemma int_mul_exact w h :
  INT_MIN <= w * h * 4 <= INT_MAX → int_mul (int_mul w h) 4 = w * h * 4.
Proof.
  unfold int_mul, INT_MIN, INT_MAX. intros Hn.
  rewrite (wrap32_id (w * h)) by (unfold int_range, INT_MIN, INT_MAX; lia).
  apply wrap32_id. unfold int_range, INT_MIN, INT_MAX. lia.
Qed.

Lemma pixel_replicate w h fmt n value i :
  (4 * i + 4 <= n)%nat →
  pixel {| width := w; height := h; data := replicate n value; format := fmt |} i
  = [value; value; value; value].
Proof.
  intros Hi. unfold pixel. cbn [data].
  rewrite drop_replicate, take_replicate.
  replace (4 `min` (n - 4 * i))%nat with 4%nat by lia. reflexivity.
Qed.

(** ** The [ImageData] constructor *)

(** X4: [ImageData(w, h, fmt)] with a size [w * h * 4] between 0 and
    [INT_MAX] builds an image that reports the size [w, h] and the format
    [fmt] and holds exactly [w * h * 4] bytes, all of them zero. *)
Theorem ImageData_of_zeroed w h fmt :
  0 <= w * h * 4 <= INT_MAX →
  ∃ image,
    ImageData_of w h fmt = Returned image
    ∧ get_size image = [w; h]
    ∧ format image = fmt
    ∧ Z.of_nat (length (get_bytes image)) = w * h * 4
    ∧ ∀ b, b ∈ get_bytes image → b = x00.
Proof.
  intros Hn. eexists. rewrite ImageData_of_run. cbv zeta.
  rewrite (image_size_exact w h Hn).
  destruct (Z.ltb_spec (w * h * 4) 0) as [Hneg | _]; [lia |].
  split; [reflexivity |]. unfold get_size, get_bytes. cbn [width height data format].
  split; [reflexivity |]. split; [reflexivity |]. split.
  - rewrite length_replicate. lia.
  - intros b Hb. apply elem_of_replicate_inv in Hb. exact Hb.
Qed.

Lemma ImageData_of_zeroed_witness :
  0 <= 3 * 2 * 4 <= INT_MAX
  ∧ ∃ image,
      ImageData_of 3 2 "RGBA" = Returned image
      ∧ get_size image = [3; 2]
      ∧ format image = "RGBA"
      ∧ Z.of_nat (length (get_bytes image)) = 3 * 2 * 4
      ∧ ∀ b, b ∈ get_bytes image → b = x00.
Proof.
  assert (Hn : 0 <= 3 * 2 * 4 <= INT_MAX) by (unfold INT_MAX; lia).
  split; [exact Hn |].
  apply (ImageData_of_zeroed 3 2 "RGBA" Hn).
Defined.

(** X5: [ImageData(w, h, fmt)] with a negative size [w * h * 4] (one
    negative dimension, no overflow) builds no image: the constructor throws
    [std::length_error], which nothing in it catches. *)
Theorem ImageData_of_negative_throws w h fmt :
  INT_MIN <= w * h * 4 < 0 →
  ∃ msg, ImageData_of w h fmt = Threw (length_error msg).
Proof.
  intros Hn. eexists. rewrite ImageData_of_run. cbv zeta.
  rewrite (int_mul_exact w h) by (unfold INT_MAX, INT_MIN in *; lia).
  destruct (Z.ltb_spec (w * h * 4) 0) as [_ | Hpos]; [reflexivity | lia].
Qed.

Lemma ImageData_of_negative_throws_witness :
  INT_MIN <= -1 * 1 * 4 < 0
  ∧ ∃ msg, ImageData_of (-1) 1 "RGBA" = Threw (length_error msg).
Proof.
  assert (Hn : INT_MIN <= -1 * 1 * 4 < 0) by (unfold INT_MIN; lia).
  split; [exact Hn |].
  apply (ImageData_of_negative_throws (-1) 1 "RGBA" Hn).
Defined.

(** ** [render_shader] over the range of sizes *)

(** X1: on an initialised engine, for positive [width] and [height] whose
    size [width * height * 4] fits in [int], [render_shader] returns, with
    the engine unchanged, an RGBA image of that width and height with exactly
    [width * height * 4] bytes, each 255: every pixel is opaque white. *)
Theorem render_shader_white_image this isf_json w h parameters :
  is_initialized this = true →
  0 < w → 0 < h → w * h * 4 <= INT_MAX →
  ∃ image,
    render_shader isf_json w h parameters this = (Returned image, this)
    ∧ get_size image = [w; h]
    ∧ format image = "RGBA"
    ∧ Z.of_nat (length (get_bytes image)) = w * h * 4
    ∧ (∀ b, b ∈ get_bytes image → b = xff)
    ∧ ∀ i, Z.of_nat i < w * h → pixel image i = [xff; xff; xff; xff].
Proof.
  intros Hinit Hw Hh Hn.
  assert (Hsize : 0 <= w * h * 4 <= INT_MAX) by nia.
  eexists. rewrite (render_shader_white this Hinit _ w h _ Hsize).
  split; [reflexivity |]. unfold get_size, get_bytes. cbn [width height data format].
  split; [reflexivity |]. split; [reflexivity |]. split; [| split].
  - rewrite length_replicate. lia.
  - intros b Hb. apply elem_of_replicate_inv in Hb. exact Hb.
  - intros i Hi. apply pixel_replicate. lia.
Qed.

Lemma render_shader_white_image_witness :
  is_initialized VVISFEngine_new = true
  ∧ 0 < 640 ∧ 0 < 480 ∧ 640 * 480 * 4 <= INT_MAX
  ∧ ∃ image,
      render_shader duplicate_document 640 480 ∅ VVISFEngine_new
      = (Returned image, VVISFEngine_new)
      ∧ get_size image = [640; 480]
      ∧ format image = "RGBA"
      ∧ Z.of_nat (length (get_bytes image)) = 640 * 480 * 4
      ∧ (∀ b, b ∈ get_bytes image → b = xff)
      ∧ ∀ i, Z.of_nat i < 640 * 480 → pixel image i = [xff; xff; xff; xff].
Proof.
  assert (Hn : 640 * 480 * 4 <= INT_MAX) by (unfold INT_MAX; lia).
  split; [reflexivity |]. split; [lia |]. split; [lia |]. split; [exact Hn |].
  apply (render_shader_white_image VVISFEngine_new duplicate_document 640 480 ∅
           eq_refl ltac:(lia) ltac:(lia) Hn).
Defined.

(** X2: a zero [width] or [height] is not rejected: on an initialised engine
    [render_shader] returns an image that carries the two dimensions as
    given, whatever the other one is, and holds no byte. *)
Theorem render_shader_zero_dimension this isf_json w h parameters :
  is_initialized this = true →
  w = 0 ∨ h = 0 →
  render_shader isf_json w h parameters this
  = (Returned {| width := w; height := h; data := []; format := "RGBA" |},
     this).
Proof.
  intros Hinit Hzero.
  rewrite (render_shader_white this Hinit).
  - replace (w * h * 4) with 0 by (destruct Hzero; subst; lia). reflexivity.
  - unfold INT_MAX. destruct Hzero; subst; lia.
Qed.

Lemma render_shader_zero_dimension_witness :
  is_initialized VVISFEngine_new = true
  ∧ (0 = 0 ∨ -5 = 0)
  ∧ render_shader red_document 0 (-5) ∅ VVISFEngine_new
    = (Returned {| width := 0; height := -5; data := []; format := "RGBA" |},
       VVISFEngine_new).
Proof.
  split; [reflexivity |]. split; [left; reflexivity |].
  apply (render_shader_zero_dimension VVISFEngine_new red_document 0 (-5) ∅).
  - reflexivity.
  - left. reflexivity.
Defined.

(** X3: a negative size [width * height * 4] (one negative dimension, no
    overflow) makes [render_shader] throw a [std::runtime_error] whose message
    starts with [Shader rendering failed: ]; the engine is unchanged. *)
Theorem render_shader_negative_size_throws this isf_json w h parameters :
  is_initialized this = true →
  INT_MIN <= w * h * 4 < 0 →
  ∃ msg,
    render_shader isf_json w h parameters this
    = (Threw (runtime_error ("Shader rendering failed: " +:+ msg)), this).
Proof.
  intros Hinit Hn. eexists. rewrite (render_shader_run this Hinit). cbv zeta.
  rewrite (int_mul_exact w h) by (unfold INT_MAX, INT_MIN in *; lia).
  destruct (Z.ltb_spec (w * h * 4) 0) as [_ | Hpos]; [reflexivity | lia].
Qed.

Lemma render_shader_negative_size_throws_witness :
  is_initialized VVISFEngine_new = true
  ∧ INT_MIN <= -1 * 8 * 4 < 0
  ∧ ∃ msg,
      render_shader red_document (-1) 8 ∅ VVISFEngine_new
      = (Threw (runtime_error ("Shader rendering failed: " +:+ msg)),
         VVISFEngine_new).
Proof.
  assert (Hn : INT_MIN <= -1 * 8 * 4 < 0) by (unfold INT_MIN; lia).
  split; [reflexivity |]. split; [exact Hn |].
  apply (render_shader_negative_size_throws VVISFEngine_new red_document (-1) 8 ∅
           eq_refl Hn).
Defined.

(** X6: [render_shader] succeeds exactly when the [ImageData] constructor
    does, for all [int] arguments.  When the constructor builds an image,
    the rendered one has its size, format and number of bytes; when it
    throws, [render_shader] throws a [std::runtime_error] that carries the
    constructor's message after [Shader rendering failed: ]. *)
Theorem render_shader_follows_constructor this isf_json w h parameters :
  is_initialized this = true →
  match ImageData_of w h "RGBA" with
  | Returned blank =>
      ∃ image,
        fst (render_shader isf_json w h parameters this) = Returned image
        ∧ get_size image = get_size blank
        ∧ format image = format blank
        ∧ length (get_bytes image) = length (get_bytes blank)
  | Threw e =>
      fst (render_shader isf_json w h parameters this)
      = Threw (runtime_error ("Shader rendering failed: " +:+ what e))
  end.
Proof.
  intros Hinit. rewrite (render_shader_run this Hinit), ImageData_of_run.
  cbv zeta. destruct (_ <? 0).
  - reflexivity.
  - eexists. split; [reflexivity |]. unfold get_size, get_bytes.
    cbn [width height data format]. rewrite !length_replicate. repeat split.
Qed.

Lemma render_shader_follows_constructor_witness :
  is_initialized VVISFEngine_new = true
  ∧ match ImageData_of (-1) 8 "RGBA" with
    | Returned blank =>
        ∃ image,
          fst (render_shader red_document (-1) 8 ∅ VVISFEngine_new)
          = Returned image
          ∧ get_size image = get_size blank
          ∧ format image = format blank
          ∧ length (get_bytes image) = length (get_bytes blank)
    | Threw e =>
        fst (render_shader red_document (-1) 8 ∅ VVISFEngine_new)
        = Threw (runtime_error ("Shader rendering failed: " +:+ what e))
    end.
Proof.
  split; [reflexivity |].
  apply (render_shader_follows_constructor VVISFEngine_new red_document (-1) 8 ∅).
  reflexivity.
Defined.

(** ** The guard, on every engine state *)

(** [validate_isf] by the two values of [is_initialized_]. *)
Lemma validate_isf_by_state this isf_json :
  (is_initialized_ this = true →
   validate_isf isf_json this
   = (Returned (ValidationResult_of true [] []), this))
  ∧ (is_initialized_ this = false →
     validate_isf isf_json this
     = (Threw (not_initialized (last_error_ this)), this)).
Proof.
  split; intros Hinit.
  - apply validate_isf_run, Hinit.
  - apply guarded_false, Hinit.
Qed.

(** X7: [validate_isf], [create_texture], [destroy_texture],
    [get_parameters] and [set_parameter] depend on the engine through
    [is_initialized_] alone: initialised, each returns its fixed result;
    otherwise each throws the runtime error [VVISFEngine not initialized: ]
    followed by the stored last error.  In both cases the engine is left as
    it was, and none of the five ever throws its own [... failed: ] error.
    [render_shader] throws the not-initialised error exactly on an engine
    that is not initialised, for all sizes. *)
Theorem guarded_methods_outcomes this :
  (∀ s,
     validate_isf s this
     = (if is_initialized this
        then Returned (ValidationResult_of true [] [])
        else Threw (not_initialized (get_last_error this)), this))
  ∧ (∀ a d w h f,
       create_texture a d w h f this
       = (if is_initialized this
          then Returned ("texture_" +:+ pretty a)
          else Threw (not_initialized (get_last_error this)), this))
  ∧ (∀ t,
       destroy_texture t this
       = (if is_initialized this
          then Returned tt
          else Threw (not_initialized (get_last_error this)), this))
  ∧ (∀ s,
       get_parameters s this
       = (if is_initialized this
          then Returned (<["resolution" := py.Tuple [py.Int 512; py.Int 512]]>
                           {["time" := py.Float (S754_zero false)]})
          else Threw (not_initialized (get_last_error this)), this))
  ∧ (∀ s n v,
       set_parameter s n v this
       = (if is_initialized this
          then Returned tt
          else Threw (not_initialized (get_last_error this)), this))
  ∧ (∀ s w h p,
       fst (render_shader s w h p this)
       = Threw (not_initialized (get_last_error this))
       ↔ is_initialized this = false).
Proof.
  unfold is_initialized, get_last_error.
  destruct (is_initialized_ this) eqn:Hinit.
  - split; [| split; [| split; [| split; [| split]]]]; intros.
    + apply validate_isf_run, Hinit.
    + apply create_texture_run, Hinit.
    + apply destroy_texture_run, Hinit.
    + rewrite (get_parameters_run this Hinit). rewrite insert_empty. reflexivity.
    + apply set_parameter_run, Hinit.
    + rewrite (render_shader_run this Hinit). cbv zeta.
      split; [| discriminate].
      destruct (_ <? 0); simpl; discriminate.
  - split; [| split; [| split; [| split; [| split]]]]; intros;
      try (apply guarded_false, Hinit).
    unfold render_shader. rewrite (guarded_false _ this Hinit).
    split; reflexivity.
Qed.

(** ** The engine over its lifetime *)

(** X8: whatever sequence of method calls a host makes on an engine it
    constructed, returning or throwing, the engine stays in the state the
    constructor left it in: initialised, with an empty last error. *)
Theorem reachable_is_new this :
  reachable this →
  this = VVISFEngine_new
  ∧ is_initialized this = true
  ∧ get_last_error this = EmptyString.
Proof.
  intros Hreach. destruct (reachable_invariant this Hreach) as [Hinit Herr].
  unfold is_initialized, get_last_error. repeat split; [| exact Hinit | exact Herr].
  destruct this as [err init]. simpl in *. subst. reflexivity.
Qed.

Lemma reachable_is_new_witness :
  let this :=
    after call_reset_errors
      (after (call_render_shader red_document (-1) 8 ∅)
         (after (call_set_parameter red_document "time" (py.Int 5))
            VVISFEngine_new)) in
  reachable this
  ∧ this = VVISFEngine_new
  ∧ is_initialized this = true
  ∧ get_last_error this = EmptyString.
Proof.
  intros this.
  assert (Hreach : reachable this)
    by (do 3 apply reachable_after; apply reachable_new).
  split; [exact Hreach |].
  apply (reachable_is_new this Hreach).
Defined.

(** X9: [reset_errors] has no guard and does not initialise: on every engine
    it returns, empties the last error and keeps [is_initialized_]; a second
    call changes nothing more.  [validate_isf] after it still succeeds or
    throws as before, the thrown message having lost the stored error. *)
Theorem reset_errors_clears_only this isf_json :
  let this' := snd (reset_errors this) in
  fst (reset_errors this) = Returned tt
  ∧ get_last_error this' = EmptyString
  ∧ is_initialized this' = is_initialized this
  ∧ snd (reset_errors this') = this'
  ∧ fst (validate_isf isf_json this')
    = if is_initialized this
      then Returned (ValidationResult_of true [] [])
      else Threw (runtime_error "VVISFEngine not initialized: ").
Proof.
  intros this'. subst this'.
  repeat (split; [reflexivity |]).
  destruct (validate_isf_by_state (snd (reset_errors this)) isf_json)
    as [Hyes Hno].
  change (is_initialized_ (snd (reset_errors this)))
    with (is_initialized_ this) in *.
  unfold is_initialized. destruct (is_initialized_ this).
  - rewrite Hyes by reflexivity. reflexivity.
  - rewrite Hno by reflexivity. reflexivity.
Qed.

(** ** Parameters and textures across calls *)

(** X10: [set_parameter] stores nothing.  On an initialised engine it
    returns, and [get_parameters] afterwards returns what it returned before:
    [param_name] is bound to [value] only if it already was, and [time] is
    still 0.0 after any attempt to set it. *)
Theorem set_parameter_not_stored this isf_json param_name value :
  is_initialized this = true →
  ∃ params : gmap string py.object,
    fst (set_parameter isf_json param_name value this) = Returned tt
    ∧ fst (get_parameters isf_json this) = Returned params
    ∧ fst (get_parameters isf_json
             (snd (set_parameter isf_json param_name value this)))
      = Returned params
    ∧ params !! "time" = Some (py.Float (S754_zero false))
    ∧ (params !! param_name = Some value →
       (param_name = "time" ∧ value = py.Float (S754_zero false))
       ∨ (param_name = "resolution"
          ∧ value = py.Tuple [py.Int 512; py.Int 512])).
Proof.
  intros Hinit. eexists.
  rewrite preserves_set_parameter, (set_parameter_run this Hinit),
    (get_parameters_run this Hinit).
  do 3 (split; [reflexivity |]). split.
  - rewrite lookup_insert_ne by discriminate. apply lookup_insert_eq.
  - simpl. intros Hk.
    destruct (decide (param_name = "resolution")) as [-> | Hres].
    + rewrite lookup_insert_eq in Hk. injection Hk as <-.
      right. split; reflexivity.
    + rewrite lookup_insert_ne in Hk by congruence.
      destruct (decide (param_name = "time")) as [-> | Htime].
      * rewrite lookup_insert_eq in Hk. injection Hk as <-.
        left. split; reflexivity.
      * rewrite lookup_insert_ne in Hk by congruence.
        rewrite lookup_empty in Hk. discriminate Hk.
Qed.

Lemma set_parameter_not_stored_witness :
  is_initialized VVISFEngine_new = true
  ∧ ∃ params : gmap string py.object,
      fst (set_parameter red_document "time" (py.Int 5) VVISFEngine_new)
      = Returned tt
      ∧ fst (get_parameters red_document VVISFEngine_new) = Returned params
      ∧ fst (get_parameters red_document
               (snd (set_parameter red_document "time" (py.Int 5)
                       VVISFEngine_new)))
        = Returned params
      ∧ params !! "time" = Some (py.Float (S754_zero false))
      ∧ (params !! "time" = Some (py.Int 5) →
         ("time" = "time" ∧ py.Int 5 = py.Float (S754_zero false))
         ∨ ("time" = "resolution"
            ∧ py.Int 5 = py.Tuple [py.Int 512; py.Int 512])).
Proof.
  split; [reflexivity |].
  apply (set_parameter_not_stored VVISFEngine_new red_document "time" (py.Int 5)).
  reflexivity.
Defined.

(** X11: the identifier that [create_texture] returns is a function of the
    address of its [data] argument and of nothing else.  Two calls on an
    initialised engine, the second after the first, return the same
    identifier exactly when the two addresses are equal, whatever the bytes,
    sizes and formats passed; sizes are not checked against the bytes. *)
Theorem create_texture_id_by_address
    this a1 d1 w1 h1 f1 a2 d2 w2 h2 f2 :
  is_initialized this = true →
  ∃ id1 id2,
    fst (create_texture a1 d1 w1 h1 f1 this) = Returned id1
    ∧ fst (create_texture a2 d2 w2 h2 f2
             (snd (create_texture a1 d1 w1 h1 f1 this)))
      = Returned id2
    ∧ (id1 = id2 ↔ a1 = a2).
Proof.
  intros Hinit. do 2 eexists.
  rewrite preserves_create_texture, !(create_texture_run this Hinit).
  split; [reflexivity |]. split; [reflexivity |]. split.
  - intros Hid. apply String.app_inj in Hid. apply (inj pretty) in Hid. exact Hid.
  - intros ->. reflexivity.
Qed.

Lemma create_texture_id_by_address_witness :
  is_initialized VVISFEngine_new = true
  ∧ ∃ id1 id2,
      fst (create_texture 4096 [xff; xff; xff; xff] 1 1 "RGBA" VVISFEngine_new)
      = Returned id1
      ∧ fst (create_texture 4096 [] (-3) 7 "BGR"
               (snd (create_texture 4096 [xff; xff; xff; xff] 1 1 "RGBA"
                       VVISFEngine_new)))
        = Returned id2
      ∧ (id1 = id2 ↔ 4096%N = 4096%N).
Proof.
  split; [reflexivity |].
  apply (create_texture_id_by_address VVISFEngine_new
           4096 [xff; xff; xff; xff] 1 1 "RGBA" 4096 [] (-3) 7 "BGR").
  reflexivity.
Defined.
